(** * AddressSelect and the MayPanic implementors index

    A shallow embedding of the two scripts of
    [implementors/ethcore_io/panics/trait.MayPanic.js]:

    - the generated implementors index, an immediately invoked function
      that builds a module-to-fragments object and hands it to the
      documentation browser through [window];
    - the React component [AddressSelect], a dropdown of accounts.

    JavaScript values are an inductive type, objects are property lists
    in enumeration order, JSX is a small tree type, exceptions are an
    error monad and calls into functions supplied by the host page are
    recorded in a call log. *)

From Stdlib Require Import List String ZArith Permutation.
Import ListNotations.
Open Scope string_scope.

#[local] Set Warnings "-register-all".

(** ** JavaScript values *)

Module JS.

(** A function supplied by the host (a callback prop, a global of the
    page).  Its body is not part of this repository: it is identified
    by [fn_id], and [fn_name] is its [name] property. *)
Record func : Type := Func { fn_id : nat; fn_name : string }.

(** Numbers are restricted to the integers and [NaN]; the scripts only
    ever test a number for truthiness. *)
Inductive value : Type :=
| VUndefined
| VNull
| VBool (b : bool)
| VNum (n : Z)
| VNaN
| VStr (s : string)
| VArr (items : list value)
| VObj (props : list (string * value))
| VFun (f : func).

(** What can be thrown: the engine's [TypeError] (its message, which
    differs between engines, is left out) or whatever a host function
    throws. *)
Inductive exn : Type :=
| TypeError
| Thrown (payload : value).

(** Completion of a computation that may throw. *)
Inductive result (A : Type) : Type :=
| Ok (a : A)
| Throw (e : exn).
Arguments Ok {A} a.
Arguments Throw {A} e.

Definition bind {A B} (r : result A) (k : A -> result B) : result B :=
  match r with
  | Ok a => k a
  | Throw e => Throw e
  end.

Notation "x <- r ;; k" := (bind r (fun x => k))
  (at level 61, r at next level, right associativity).

Definition is_ok {A} (r : result A) : bool :=
  match r with Ok _ => true | Throw _ => false end.

(** [ToBoolean]: the falsy values are [undefined], [null], [false],
    [0], [NaN] and the empty string. *)
Definition truthy (v : value) : bool :=
  match v with
  | VUndefined | VNull | VNaN => false
  | VBool b => b
  | VNum n => negb (Z.eqb n 0)
  | VStr s => negb (String.eqb s "")
  | VArr _ | VObj _ | VFun _ => true
  end.

(** [a || b]. *)
Definition or_else (a b : value) : value :=
  if truthy a then a else b.

(** [v !== undefined]. *)
Definition is_defined (v : value) : bool :=
  match v with
  | VUndefined => false
  | _ => true
  end.

Definition nullish (v : value) : bool :=
  match v with
  | VUndefined | VNull => true
  | _ => false
  end.

Definition is_object (v : value) : bool :=
  match v with
  | VObj _ => true
  | _ => false
  end.

(** Own property lookup in a property list. *)
Fixpoint lookup (k : string) (ps : list (string * value)) : option value :=
  match ps with
  | [] => None
  | (k', v) :: rest => if String.eqb k k' then Some v else lookup k rest
  end.

Definition own (k : string) (ps : list (string * value)) : value :=
  match lookup k ps with
  | Some v => v
  | None => VUndefined
  end.

(** [o.k]: reading a property.  [undefined] and [null] have no
    properties and the read throws; an object yields its own property or
    [undefined]; a function has its [name].  Properties inherited from
    the built-in prototypes ([length], [constructor], ...) are left out:
    the scripts read [address] and [name] only, which no built-in
    prototype defines. *)
Definition member (o : value) (k : string) : result value :=
  match o with
  | VUndefined | VNull => Throw TypeError
  | VObj ps => Ok (own k ps)
  | VFun f => Ok (if String.eqb k "name" then VStr (fn_name f) else VUndefined)
  | VBool _ | VNum _ | VNaN | VStr _ | VArr _ => Ok VUndefined
  end.

(** [o[k] = v] on a property list: an existing property keeps its
    position, a new one is appended.  (Keys that are array indices,
    which JavaScript enumerates before the others, do not occur in the
    scripts.) *)
Fixpoint assign (k : string) (v : value) (ps : list (string * value))
  : list (string * value) :=
  match ps with
  | [] => [(k, v)]
  | (k', v') :: rest =>
      if String.eqb k k' then (k, v) :: rest else (k', v') :: assign k v rest
  end.

Definition chars (s : string) : list value :=
  map (fun c => VStr (String c EmptyString)) (list_ascii_of_string s).

(** [Object.values(o)]: the own enumerable property values, in
    enumeration order.  [undefined] and [null] cannot be converted to an
    object; a string enumerates its characters, an array its elements;
    numbers, booleans and functions have no own enumerable property. *)
Definition Object_values (o : value) : result (list value) :=
  match o with
  | VUndefined | VNull => Throw TypeError
  | VObj ps => Ok (map snd ps)
  | VArr items => Ok items
  | VStr s => Ok (chars s)
  | VBool _ | VNum _ | VNaN | VFun _ => Ok []
  end.

(** [xs.map(f)] for a callback that may throw: elements are visited in
    order and the first exception aborts the traversal. *)
Fixpoint Array_map {A B} (f : A -> result B) (xs : list A) : result (list B) :=
  match xs with
  | [] => Ok []
  | x :: rest =>
      y <- f x ;;
      ys <- Array_map f rest ;;
      Ok (y :: ys)
  end.

End JS.

(** ** The host page: globals and functions supplied from outside *)

Module Host.
Import JS.

(** The two slots of [window] that the implementors index touches. *)
Record window : Type := Window {
  register_implementors : value;
  pending_implementors : value
}.

(** A slot meant for a callback: it holds a function once the page has
    installed one and is undefined until then. *)
Definition callback_slot (v : value) : Prop :=
  v = VUndefined \/ exists f, v = VFun f.

(** One invocation of a host function. *)
Record call : Type := Call { callee : func; args : list value }.

(** What the scripts can observe and change: the slots of [window] and
    the calls made so far into host functions, oldest first. *)
Record world : Type := World { win : window; calls : list call }.

(** A computation with effects on the world; the world reached is kept
    when the computation throws. *)
Definition M (A : Type) : Type := world -> result A * world.

Definition ret {A} (a : A) : M A := fun w => (Ok a, w).

Definition and_then {A B} (m : M A) (k : A -> M B) : M B :=
  fun w =>
    match m w with
    | (Ok a, w') => k a w'
    | (Throw e, w') => (Throw e, w')
    end.

Notation "x <~ m ;; k" := (and_then m (fun x => k))
  (at level 61, m at next level, right associativity).

Definition record_call (g : func) (xs : list value) (w : world) : world :=
  World (win w) (calls w ++ [Call g xs]).

Definition get_register_implementors : M value :=
  fun w => (Ok (register_implementors (win w)), w).

Definition set_pending_implementors (v : value) : M value :=
  fun w =>
    (Ok v, World (Window (register_implementors (win w)) v) (calls w)).

Section Calls.

(** Completion of the body of each host function, given the world it is
    called in and its arguments: a returned value or an exception. *)
Variable host : world -> func -> list value -> result value.

(** [f(x1, ..., xn)]: a function is invoked, which is recorded; anything
    else is not callable. *)
Definition apply (f : value) (xs : list value) : M value :=
  fun w =>
    match f with
    | VFun g => (host w g xs, record_call g xs w)
    | _ => (Throw TypeError, w)
    end.

End Calls.

End Host.

(** ** JSX trees *)

Module Jsx.
Import JS.

(** What a JSX expression evaluates to, before React interprets it: an
    element with its attributes as written ([key] included) and its
    children, an embedded JavaScript value, an array of nodes, or a
    reference to a method of the component instance. *)
Inductive node : Type :=
| Expr (v : value)
| Method (name : string)
| Arr (items : list node)
| Elem (type : string) (attrs : list (string * node)) (children : list node).

Fixpoint attr_lookup (k : string) (ats : list (string * node)) : option node :=
  match ats with
  | [] => None
  | (k', n) :: rest => if String.eqb k k' then Some n else attr_lookup k rest
  end.

Definition attr (k : string) (n : node) : option node :=
  match n with
  | Elem _ ats _ => attr_lookup k ats
  | _ => None
  end.

Definition type_of (n : node) : option string :=
  match n with
  | Elem t _ _ => Some t
  | _ => None
  end.

Definition children_of (n : node) : list node :=
  match n with
  | Elem _ _ cs => cs
  | _ => []
  end.

Definition child (i : nat) (n : node) : option node :=
  nth_error (children_of n) i.

(** The nodes below an element once arrays among its children are
    spliced in, as React does when it lays the children out. *)
Definition flat_children (n : node) : list node :=
  flat_map (fun c => match c with Arr items => items | _ => [c] end)
           (children_of n).

End Jsx.

(** ** The component [AddressSelect] *)

Module Props.
Import JS.

(** [this.props]: every prop is a JavaScript value, [VUndefined] when
    the caller leaves it out. *)
Record t : Type := Make {
  disabled : value;
  accounts : value;
  label : value;
  hint : value;
  error : value;
  value : JS.value;
  onChange : JS.value
}.

Definition with_disabled (d : JS.value) (p : t) : t :=
  Make d (accounts p) (label p) (hint p) (error p) (value p) (onChange p).

Definition with_accounts (a : JS.value) (p : t) : t :=
  Make (disabled p) a (label p) (hint p) (error p) (value p) (onChange p).

End Props.

Module AddressSelect.
Import JS Host Jsx.

Inductive PropType : Type := PT_bool | PT_object | PT_string | PT_func.

Record checker : Type := Checker { type : PropType; isRequired : bool }.

(** [static propTypes]. *)
Definition propTypes : list (string * checker) :=
  [ ("disabled", Checker PT_bool false);
    ("accounts", Checker PT_object false);
    ("label", Checker PT_string false);
    ("hint", Checker PT_string false);
    ("error", Checker PT_string false);
    ("value", Checker PT_string false);
    ("onChange", Checker PT_func true) ].

Fixpoint declared (k : string) (ds : list (string * checker)) : option checker :=
  match ds with
  | [] => None
  | (k', c) :: rest => if String.eqb k k' then Some c else declared k rest
  end.

(** The props that section 4.1 of the specification calls required. *)
Definition spec_required_props : list string := ["accounts"; "onChange"].

Section Component.

(** The class names imported from [addressSelect.css]. *)
Variable styles : list (string * value).

(** The option of one account: a [MenuItem] whose key and value are the
    account's address and whose label and only child are the row with
    the identity icon and the name. *)
Definition renderAccountItem (account : value) : result node :=
  address <- member account "address" ;;
  name <- member account "name" ;;
  let item :=
    Elem "div" [("className", Expr (own "account" styles))]
      [ Elem "div" [("className", Expr (own "image" styles))]
          [ Elem "IdentityIcon"
              [ ("inline", Expr (VBool true));
                ("center", Expr (VBool true));
                ("address", Expr address) ]
              [] ];
        Elem "div" [("className", Expr (own "details" styles))]
          [ Elem "div" [("className", Expr (own "name" styles))]
              [ Expr (or_else name (VStr "Unnamed")) ] ] ] in
  key <- member account "address" ;;
  value <- member account "address" ;;
  Ok (Elem "MenuItem"
        [ ("key", Expr key); ("value", Expr value); ("label", item) ]
        [ item ]).

Definition renderSelectAccounts (this : Props.t) : result (list node) :=
  values <- Object_values (Props.accounts this) ;;
  Array_map renderAccountItem values.

Definition render (this : Props.t) : result node :=
  options <- renderSelectAccounts this ;;
  Ok (Elem "Select"
        [ ("disabled", Expr (Props.disabled this));
          ("label", Expr (Props.label this));
          ("hint", Expr (Props.hint this));
          ("error", Expr (Props.error this));
          ("value", Expr (Props.value this));
          ("onChange", Method "onChange") ]
        [ Arr options ]).

(** The name label of an option: the content of the [styles.name] cell
    inside the details cell of the option's row. *)
Definition name_label (menu_item : node) : option node :=
  match child 0 menu_item with
  | Some item =>
      match child 1 item with
      | Some details =>
          match child 0 details with
          | Some cell => child 0 cell
          | None => None
          end
      | None => None
      end
  | None => None
  end.

(** The options that the dropdown widget receives from [render]. *)
Definition rendered_options (this : Props.t) : result (list node) :=
  select <- render this ;;
  Ok (flat_children select).

(** The host functions. *)
Variable host : world -> func -> list value -> result value.

(** The change handler given to the dropdown widget, which calls it
    with the event, the index of the chosen option and its value. *)
Definition onChange (this : Props.t) (event idx value : JS.value) : M JS.value :=
  _ <~ apply host (Props.onChange this) [event; value] ;;
  ret VUndefined.

End Component.

End AddressSelect.

(** ** The implementors index of [MayPanic] *)

Module Implementors.
Import JS Host.

(** The object that the script fills, one assignment per crate; each
    fragment is the markup of one [impl]. *)
Definition implementors : value :=
  let implementors := [] in
  let implementors :=
    assign "ethcore_network"
      (VArr
        [ VStr "impl MayPanic for <a class='struct' href='ethcore_network/struct.NetworkService.html' title='ethcore_network::NetworkService'>NetworkService</a>" ])
      implementors in
  let implementors :=
    assign "ethcore"
      (VArr
        [ VStr "impl <a class='trait' href='ethcore_io/panics/trait.MayPanic.html' title='ethcore_io::panics::MayPanic'>MayPanic</a> for <a class='struct' href='ethcore/client/struct.Client.html' title='ethcore::client::Client'>Client</a>";
         VStr "impl <a class='trait' href='ethcore_io/panics/trait.MayPanic.html' title='ethcore_io::panics::MayPanic'>MayPanic</a> for <a class='struct' href='ethcore/service/struct.ClientService.html' title='ethcore::service::ClientService'>ClientService</a>" ])
      implementors in
  let implementors :=
    assign "ethsync"
      (VArr
        [ VStr "impl <a class='trait' href='ethcore_io/panics/trait.MayPanic.html' title='ethcore_io::panics::MayPanic'>MayPanic</a> for <a class='struct' href='ethcore_network/service/struct.NetworkService.html' title='ethcore_network::service::NetworkService'>NetworkService</a>" ])
      implementors in
  let implementors :=
    assign "ethcore_signer"
      (VArr
        [ VStr "impl <a class='trait' href='ethcore_io/panics/trait.MayPanic.html' title='ethcore_io::panics::MayPanic'>MayPanic</a> for <a class='struct' href='ethcore_signer/struct.Server.html' title='ethcore_signer::Server'>Server</a>" ])
      implementors in
  let implementors :=
    assign "parity"
      (VArr
        [ VStr "impl <a class='trait' href='ethcore_io/panics/trait.MayPanic.html' title='ethcore_io::panics::MayPanic'>MayPanic</a> for <a class='struct' href='ethcore_signer/ws_server/struct.Server.html' title='ethcore_signer::ws_server::Server'>Server</a>";
         VStr "impl <a class='trait' href='ethcore_io/panics/trait.MayPanic.html' title='ethcore_io::panics::MayPanic'>MayPanic</a> for <a class='struct' href='ethcore/client/client/struct.Client.html' title='ethcore::client::client::Client'>Client</a>";
         VStr "impl <a class='trait' href='ethcore_io/panics/trait.MayPanic.html' title='ethcore_io::panics::MayPanic'>MayPanic</a> for <a class='struct' href='ethcore/service/struct.ClientService.html' title='ethcore::service::ClientService'>ClientService</a>" ])
      implementors in
  VObj implementors.

Section Script.

Variable host : world -> func -> list value -> result value.

(** The body of the immediately invoked function, after [implementors]
    is built: registration if the page has a callback, the pending slot
    otherwise. *)
Definition script : M value :=
  registered <~ get_register_implementors ;;
  if truthy registered then
    callback <~ get_register_implementors ;;
    _ <~ apply host callback [implementors] ;;
    ret VUndefined
  else
    _ <~ set_pending_implementors implementors ;;
    ret VUndefined.

End Script.

End Implementors.

(** ** Reading accounts and options *)

Module Account.
Import JS.

(** What [account.address] evaluates to where it does not throw. *)
Definition address (account : value) : value :=
  match member account "address" with
  | Ok v => v
  | Throw _ => VUndefined
  end.

End Account.

Module MenuItem.
Import JS Jsx.

(** The [IdentityIcon] of an option: the content of the image cell of
    the option's row. *)
Definition icon (menu_item : node) : option node :=
  match child 0 menu_item with
  | Some row =>
      match child 0 row with
      | Some image => child 0 image
      | None => None
      end
  | None => None
  end.

Definition icon_attr (k : string) (menu_item : node) : option node :=
  match icon menu_item with
  | Some i => attr k i
  | None => None
  end.

End MenuItem.

(** ** Sample inputs *)

Module Scenario.
Import JS Host.

Definition alice : value :=
  VObj [("address", VStr "0xAAA"); ("name", VStr "Alice")].

Definition anonymous : value :=
  VObj [("address", VStr "0xBBB")].

Definition blank : value :=
  VObj [("address", VStr "0xCCC"); ("name", VStr "")].

(** The two accounts of the scenario of section 8. *)
Definition two_accounts : list (string * value) :=
  [("0xAAA", alice); ("0xBBB", anonymous)].

(** The same records filed under keys that are not their addresses. *)
Definition rekeyed_accounts : list (string * value) :=
  [("second", anonymous); ("first", alice)].

Definition styles : list (string * value) :=
  [ ("account", VStr "account"); ("image", VStr "image");
    ("details", VStr "details"); ("name", VStr "name") ].

Definition on_select : func := Func 1 "onSelect".

Definition register : func := Func 2 "register_implementors".

Definition props (accounts : value) : Props.t :=
  Props.Make (VBool false) accounts (VStr "account") (VStr "pick one")
             VUndefined (VStr "0xAAA") (VFun on_select).

(** Host functions that return nothing. *)
Definition quiet_host (w : world) (f : func) (xs : list value) : result value :=
  Ok VUndefined.

Definition click : value := VObj [("type", VStr "change")].

Definition empty_page : world :=
  World (Window VUndefined VUndefined) [].

Definition loaded_page : world :=
  World (Window (VFun register) VUndefined) [].

End Scenario.

(** ** Properties *)

Import JS Host Jsx.

(** *** Arrays and property lists *)

Section ArrayMap.

Context {A B : Type} (f : A -> result B).

Lemma Array_map_cons_ok (x : A) (xs : list A) (zs : list B) :
  Array_map f (x :: xs) = Ok zs ->
  exists y ys, f x = Ok y /\ Array_map f xs = Ok ys /\ zs = y :: ys.
Proof.
  simpl. destruct (f x) as [y|e]; simpl; [|discriminate].
  destruct (Array_map f xs) as [ys|e]; simpl; [|discriminate].
  intros H. injection H as <-. now exists y, ys.
Qed.

Lemma Array_map_length (xs : list A) (ys : list B) :
  Array_map f xs = Ok ys -> List.length ys = List.length xs.
Proof.
  revert ys. induction xs as [|x xs IH]; intros ys H.
  - simpl in H. injection H as <-. reflexivity.
  - apply Array_map_cons_ok in H as (y & ys' & _ & Hxs & ->).
    simpl. f_equal. now apply IH.
Qed.

Lemma Array_map_Forall2 (xs : list A) (ys : list B) :
  Array_map f xs = Ok ys -> Forall2 (fun x y => f x = Ok y) xs ys.
Proof.
  revert ys. induction xs as [|x xs IH]; intros ys H.
  - simpl in H. injection H as <-. constructor.
  - apply Array_map_cons_ok in H as (y & ys' & Hy & Hxs & ->).
    constructor; [assumption | now apply IH].
Qed.

Lemma Array_map_total (xs : list A) :
  Forall (fun x => is_ok (f x) = true) xs ->
  exists ys, Array_map f xs = Ok ys.
Proof.
  induction 1 as [|x xs Hx _ [ys IH]].
  - now exists [].
  - simpl. destruct (f x) as [y|e]; [|discriminate].
    simpl. rewrite IH. simpl. now exists (y :: ys).
Qed.

Lemma Array_map_ok_all (xs : list A) (ys : list B) :
  Array_map f xs = Ok ys -> Forall (fun x => is_ok (f x) = true) xs.
Proof.
  revert ys. induction xs as [|x xs IH]; intros ys H; constructor.
  - apply Array_map_cons_ok in H as (y & _ & -> & _). reflexivity.
  - apply Array_map_cons_ok in H as (_ & ys' & _ & Hxs & _). eauto.
Qed.

Lemma Array_map_In (xs : list A) (ys : list B) (x : A) :
  Array_map f xs = Ok ys -> In x xs -> exists y, f x = Ok y /\ In y ys.
Proof.
  revert ys. induction xs as [|x' xs IH]; intros ys H Hin; [easy|].
  apply Array_map_cons_ok in H as (y & ys' & Hy & Hxs & ->).
  destruct Hin as [->|Hin].
  - exists y. split; [assumption | now left].
  - destruct (IH _ Hxs Hin) as (z & Hz & Hzin).
    exists z. split; [assumption | now right].
Qed.

Lemma Array_map_Permutation (xs xs' : list A) :
  Permutation xs xs' ->
  forall ys, Array_map f xs = Ok ys ->
  exists ys', Array_map f xs' = Ok ys' /\ Permutation ys ys'.
Proof.
  induction 1 as [|x l l' _ IH|x y l|l l' l'' _ IH1 _ IH2]; intros ys H.
  - exists ys. split; [assumption | reflexivity].
  - apply Array_map_cons_ok in H as (z & zs & Hz & Hl & ->).
    destruct (IH _ Hl) as (zs' & Hl' & Hp).
    exists (z :: zs'). split; [|now apply perm_skip].
    simpl. rewrite Hz. simpl. rewrite Hl'. reflexivity.
  - apply Array_map_cons_ok in H as (b & zs & Hb & H & ->).
    apply Array_map_cons_ok in H as (a & zs' & Ha & Hl & ->).
    exists (a :: b :: zs'). split; [|apply perm_swap].
    simpl. rewrite Ha. simpl. rewrite Hb. simpl. rewrite Hl. reflexivity.
  - destruct (IH1 _ H) as (ys' & H' & Hp1).
    destruct (IH2 _ H') as (ys'' & H'' & Hp2).
    exists ys''. split; [assumption | now transitivity ys'].
Qed.

End ArrayMap.

(** *** Rendering *)

Section Rendering.

Import AddressSelect.

Variable styles : list (string * value).

(** An account record always yields an option: a [MenuItem] keyed and
    valued by the address, with the row as label and child, and the name
    or its placeholder in the name cell. *)
Lemma renderAccountItem_record (fields : list (string * value)) :
  exists e,
    renderAccountItem styles (VObj fields) = Ok e /\
    type_of e = Some "MenuItem" /\
    attr "key" e = Some (Expr (own "address" fields)) /\
    attr "value" e = Some (Expr (own "address" fields)) /\
    attr "label" e = child 0 e /\
    name_label e = Some (Expr (or_else (own "name" fields) (VStr "Unnamed"))).
Proof.
  eexists. split; [reflexivity|]. repeat split.
Qed.

(** Reading a property fails on [undefined] and [null] only, hence so
    does building an option. *)
Lemma renderAccountItem_is_ok (account : value) :
  is_ok (renderAccountItem styles account) = negb (nullish account).
Proof.
  destruct account; reflexivity.
Qed.

Lemma records_render (ps : list (string * value)) :
  Forall (fun e => is_object (snd e) = true) ps ->
  Forall (fun a => is_ok (renderAccountItem styles a) = true) (map snd ps).
Proof.
  intros H. apply Forall_map. eapply Forall_impl; [|exact H].
  intros [k a] Ha. simpl in *. rewrite renderAccountItem_is_ok.
  destruct a; simpl in *; congruence.
Qed.

(** The dropdown widget receives exactly the list that
    [renderSelectAccounts] returns. *)
Lemma rendered_options_eq (this : Props.t) :
  rendered_options styles this = renderSelectAccounts styles this.
Proof.
  unfold rendered_options, render.
  destruct (renderSelectAccounts styles this) as [opts|e]; simpl; [|reflexivity].
  unfold flat_children. simpl. now rewrite app_nil_r.
Qed.

Lemma render_is_ok (this : Props.t) :
  is_ok (render styles this) = is_ok (renderSelectAccounts styles this).
Proof.
  unfold render. now destruct (renderSelectAccounts styles this).
Qed.

(** Rendering succeeds exactly when the collection is neither
    [undefined] nor [null] and none of its values is. *)
Lemma renderSelectAccounts_is_ok (this : Props.t) :
  is_ok (renderSelectAccounts styles this) = true <->
  exists values,
    Object_values (Props.accounts this) = Ok values /\
    Forall (fun a => nullish a = false) values.
Proof.
  unfold renderSelectAccounts.
  destruct (Object_values (Props.accounts this)) as [values|e]; simpl.
  - split.
    + intros H. exists values. split; [reflexivity|].
      destruct (Array_map (renderAccountItem styles) values) as [ys|e] eqn:E;
        [|discriminate].
      apply Array_map_ok_all in E. eapply Forall_impl; [|exact E].
      intros a Ha. simpl in Ha. rewrite renderAccountItem_is_ok in Ha.
      now destruct (nullish a).
    + intros (vs & [= <-] & Hvs).
      destruct (Array_map_total (renderAccountItem styles) values) as [ys ->];
        [|reflexivity].
      eapply Forall_impl; [|exact Hvs].
      intros a Ha. simpl in Ha. rewrite renderAccountItem_is_ok, Ha. reflexivity.
  - split; [discriminate|]. intros (vs & H & _). discriminate.
Qed.

(** C2: for a non-empty collection of account records, the component
    renders as many options as the collection has entries, one per
    entry and in the order of the entries. *)
Theorem options_count (this : Props.t) (ps : list (string * value)) :
  Props.accounts this = VObj ps ->
  ps <> [] ->
  Forall (fun e => is_object (snd e) = true) ps ->
  exists opts,
    renderSelectAccounts styles this = Ok opts /\
    rendered_options styles this = Ok opts /\
    List.length opts = List.length ps /\
    Forall2 (fun e opt => renderAccountItem styles (snd e) = Ok opt) ps opts.
Proof.
  intros Hacc _ Hrec. rewrite rendered_options_eq.
  unfold renderSelectAccounts. rewrite Hacc. simpl.
  destruct (Array_map_total _ _ (records_render ps Hrec)) as [opts Hopts].
  exists opts. repeat split; try assumption.
  - apply Array_map_length in Hopts. now rewrite Hopts, length_map.
  - apply Array_map_Forall2 in Hopts.
    clear - Hopts. revert opts Hopts.
    induction ps as [|e ps IH]; intros opts H; inversion H; subst;
      constructor; auto.
Qed.

(** C3: an account record whose [name] is absent (reads as [undefined])
    or is the empty string gets the label ["Unnamed"]. *)
Theorem unnamed_label (fields : list (string * value)) :
  own "name" fields = VUndefined \/ own "name" fields = VStr "" ->
  exists e,
    renderAccountItem styles (VObj fields) = Ok e /\
    name_label e = Some (Expr (VStr "Unnamed")).
Proof.
  intros H.
  destruct (renderAccountItem_record fields) as (e & He & _ & _ & _ & _ & Hl).
  exists e. split; [assumption|]. rewrite Hl.
  destruct H as [-> | ->]; reflexivity.
Qed.

(** C4: an account record whose [name] is a non-empty string gets that
    very string as its label. *)
Theorem named_label (fields : list (string * value)) (name : string) :
  own "name" fields = VStr name ->
  name <> "" ->
  exists e,
    renderAccountItem styles (VObj fields) = Ok e /\
    name_label e = Some (Expr (VStr name)).
Proof.
  intros H Hne.
  destruct (renderAccountItem_record fields) as (e & He & _ & _ & _ & _ & Hl).
  exists e. split; [assumption|]. rewrite Hl, H.
  unfold or_else. simpl.
  destruct (String.eqb_spec name ""); [contradiction | reflexivity].
Qed.

(** C5: the option of an account record has the record's [address] both
    as its [key] and as its [value]. *)
Theorem option_key_value (fields : list (string * value)) :
  exists e,
    renderAccountItem styles (VObj fields) = Ok e /\
    attr "key" e = Some (Expr (own "address" fields)) /\
    attr "value" e = Some (Expr (own "address" fields)).
Proof.
  destruct (renderAccountItem_record fields) as (e & He & _ & Hk & Hv & _).
  now exists e.
Qed.

(** C6: with the empty object as [accounts] the component renders
    without an exception and the dropdown has no option. *)
Theorem empty_accounts (this : Props.t) :
  Props.accounts this = VObj [] ->
  renderSelectAccounts styles this = Ok [] /\
  rendered_options styles this = Ok [] /\
  render styles this =
    Ok (Elem "Select"
          [ ("disabled", Expr (Props.disabled this));
            ("label", Expr (Props.label this));
            ("hint", Expr (Props.hint this));
            ("error", Expr (Props.error this));
            ("value", Expr (Props.value this));
            ("onChange", Method "onChange") ]
          [ Arr [] ]).
Proof.
  intros H. rewrite rendered_options_eq.
  unfold render, renderSelectAccounts. rewrite H. now simpl.
Qed.

(** C8: the [disabled] prop reaches the dropdown widget as its
    [disabled] attribute, [true] in particular, and has no part in the
    options: whatever [disabled] is, the widget gets the options that
    the accounts give. *)
Theorem disabled_passthrough (this : Props.t) (d : value) (opts : list node) :
  renderSelectAccounts styles this = Ok opts ->
  renderSelectAccounts styles (Props.with_disabled d this) = Ok opts /\
  rendered_options styles (Props.with_disabled d this) = Ok opts /\
  exists e,
    render styles (Props.with_disabled d this) = Ok e /\
    type_of e = Some "Select" /\
    attr "disabled" e = Some (Expr d) /\
    flat_children e = opts.
Proof.
  intros H.
  assert (Hsame : renderSelectAccounts styles (Props.with_disabled d this) =
                  Ok opts) by exact H.
  split; [assumption|]. split.
  - now rewrite rendered_options_eq.
  - unfold render. rewrite Hsame. simpl. eexists. split; [reflexivity|].
    repeat split. unfold flat_children. simpl. apply app_nil_r.
Qed.

(** The options never depend on [disabled], also when rendering throws. *)
Lemma disabled_irrelevant (this : Props.t) (d : value) :
  renderSelectAccounts styles (Props.with_disabled d this) =
    renderSelectAccounts styles this /\
  is_ok (render styles (Props.with_disabled d this)) =
    is_ok (render styles this).
Proof.
  split; [reflexivity|]. now rewrite !render_is_ok.
Qed.

End Rendering.

Section Collections.

Import AddressSelect.

Variable styles : list (string * value).

(** C9: when [accounts] is left out, enumerating its values throws a
    [TypeError] and so does [render]; with a mapping of account records
    in its place, empty or not, rendering succeeds.  The declared prop
    types leave [accounts] optional, whereas the specification lists it
    as required. *)
Theorem omitted_accounts_throw (this : Props.t) :
  Props.accounts this = VUndefined ->
  renderSelectAccounts styles this = Throw TypeError /\
  render styles this = Throw TypeError /\
  (forall ps,
     Forall (fun e => is_object (snd e) = true) ps ->
     is_ok (render styles (Props.with_accounts (VObj ps) this)) = true) /\
  declared "accounts" propTypes = Some (Checker PT_object false) /\
  declared "onChange" propTypes = Some (Checker PT_func true) /\
  In "accounts" spec_required_props.
Proof.
  intros H.
  assert (Hvalues : renderSelectAccounts styles this = Throw TypeError).
  { unfold renderSelectAccounts. now rewrite H. }
  split; [assumption|]. split.
  { unfold render. now rewrite Hvalues. }
  split; [|repeat split; simpl; auto].
  intros ps Hps. rewrite render_is_ok. unfold renderSelectAccounts. simpl.
  destruct (Array_map_total _ _ (records_render styles ps Hps)) as [opts ->].
  reflexivity.
Qed.

(** C10: the options are computed from the records of the mapping and
    not from its keys.  Under whatever key a record is filed, its option
    has the record's [address] as key and value; two mappings with the
    same records in the same order render the same list, and with the
    same records in any order the same options up to order. *)
Theorem keys_irrelevant (this that : Props.t) (ps qs : list (string * value)) :
  Props.accounts this = VObj ps ->
  Props.accounts that = VObj qs ->
  Forall (fun e => is_object (snd e) = true) ps ->
  Permutation (map snd ps) (map snd qs) ->
  exists opts opts',
    renderSelectAccounts styles this = Ok opts /\
    renderSelectAccounts styles that = Ok opts' /\
    Permutation opts opts' /\
    (map snd ps = map snd qs -> opts = opts') /\
    (forall k fields,
       In (k, VObj fields) ps ->
       exists e,
         In e opts /\
         attr "key" e = Some (Expr (own "address" fields)) /\
         attr "value" e = Some (Expr (own "address" fields))).
Proof.
  intros Hthis Hthat Hrec Hperm.
  unfold renderSelectAccounts. rewrite Hthis, Hthat. simpl.
  destruct (Array_map_total _ _ (records_render styles ps Hrec)) as [opts Hopts].
  destruct (Array_map_Permutation _ _ _ Hperm _ Hopts) as (opts' & Hopts' & Hp).
  exists opts, opts'. repeat split; try assumption.
  - intros Heq. rewrite <- Heq in Hopts'. congruence.
  - intros k fields Hin.
    apply (in_map snd) in Hin. simpl in Hin.
    destruct (Array_map_In _ _ _ _ Hopts Hin) as (e & He & Hine).
    destruct (renderAccountItem_record styles fields)
      as (e' & He' & _ & Hk & Hv & _).
    assert (e = e') by congruence. subst e'.
    now exists e.
Qed.

End Collections.

(** *** The change handler *)

Section Handler.

Variable host : world -> func -> list value -> result value.

(** C1: when the dropdown widget reports a change as (event, index,
    value), the handler calls the [onChange] prop once, with (event,
    value): the call log grows by that single call, nothing else in the
    world changes, and the index plays no part.  The value is passed as
    it is, whatever it is; the handler completes as the callback does. *)
Theorem onChange_forwards (this : Props.t) (event idx value : value)
    (f : func) (w : world) :
  Props.onChange this = VFun f ->
  AddressSelect.onChange host this event idx value w =
    (_ <- host w f [event; value] ;; Ok VUndefined,
     World (win w) (calls w ++ [Call f [event; value]])) /\
  (forall idx',
     AddressSelect.onChange host this event idx' value w =
     AddressSelect.onChange host this event idx value w).
Proof.
  intros H. split; [|reflexivity].
  unfold AddressSelect.onChange, and_then, apply. rewrite H.
  now destruct (host w f [event; value]).
Qed.

(** Without a callable [onChange] prop the handler throws and records
    no call. *)
Lemma onChange_not_callable (this : Props.t) (event idx value : value)
    (w : world) :
  (forall f, Props.onChange this <> VFun f) ->
  AddressSelect.onChange host this event idx value w =
    (Throw TypeError, w).
Proof.
  intros H. unfold AddressSelect.onChange, and_then, apply.
  destruct (Props.onChange this); try reflexivity.
  now destruct (H f).
Qed.

End Handler.

(** *** The implementors script *)

Section Dispatch.

Import Implementors.

Variable host : world -> func -> list value -> result value.

Lemma implementors_keys :
  exists ps,
    implementors = VObj ps /\
    map fst ps =
      ["ethcore_network"; "ethcore"; "ethsync"; "ethcore_signer"; "parity"].
Proof.
  eexists. split; reflexivity.
Qed.

(** C7: for a slot that holds the page's registration callback or
    nothing: if [window.register_implementors] is defined, the script
    calls it once with the mapping and leaves every slot of [window],
    [pending_implementors] included, as it was; otherwise the mapping is
    stored in [pending_implementors] and no call is made. *)
Theorem script_dispatch (w : world) :
  callback_slot (register_implementors (win w)) ->
  if is_defined (register_implementors (win w)) then
    exists f,
      register_implementors (win w) = VFun f /\
      script host w =
        (_ <- host w f [implementors] ;; Ok VUndefined,
         World (win w) (calls w ++ [Call f [implementors]]))
  else
    script host w =
      (Ok VUndefined,
       World (Window VUndefined implementors) (calls w)).
Proof.
  unfold script, and_then, get_register_implementors, apply,
    set_pending_implementors.
  intros [H | [f H]]; rewrite H; simpl; rewrite H.
  - reflexivity.
  - exists f. split; [reflexivity|].
    now destruct (host w f [implementors]).
Qed.

(** The test is one of truthiness: every falsy slot takes the pending
    branch. *)
Lemma script_falsy (w : world) :
  truthy (register_implementors (win w)) = false ->
  script host w =
    (Ok VUndefined,
     World (Window (register_implementors (win w)) implementors) (calls w)).
Proof.
  intros H.
  unfold script, and_then, get_register_implementors, set_pending_implementors.
  rewrite H. reflexivity.
Qed.

(** A truthy slot that holds no function makes the call throw; nothing
    is stored and no call is recorded. *)
Lemma script_not_callable (w : world) :
  truthy (register_implementors (win w)) = true ->
  (forall f, register_implementors (win w) <> VFun f) ->
  script host w = (Throw TypeError, w).
Proof.
  intros H Hnf.
  unfold script, and_then, get_register_implementors, apply.
  simpl. rewrite H.
  destruct (register_implementors (win w)); try reflexivity.
  now destruct (Hnf f).
Qed.

End Dispatch.

(** ** The properties at the sample inputs *)

Section Samples.

Import Scenario.

(** The scenario of section 8: two options, keyed by the addresses,
    labelled ["Alice"] and ["Unnamed"]. *)
Example two_accounts_options :
  exists first second,
    AddressSelect.rendered_options styles (props (VObj two_accounts)) =
      Ok [first; second] /\
    attr "key" first = Some (Expr (VStr "0xAAA")) /\
    AddressSelect.name_label first = Some (Expr (VStr "Alice")) /\
    attr "key" second = Some (Expr (VStr "0xBBB")) /\
    AddressSelect.name_label second = Some (Expr (VStr "Unnamed")).
Proof.
  do 2 eexists. split; [reflexivity|]. repeat split.
Qed.

(** A name is shown as it is, surrounding blanks included. *)
Example padded_name_kept :
  exists e,
    AddressSelect.renderAccountItem styles
      (VObj [("address", VStr "0xD"); ("name", VStr " Bob ")]) = Ok e /\
    AddressSelect.name_label e = Some (Expr (VStr " Bob ")).
Proof.
  eexists. split; reflexivity.
Qed.

(** A record without [address] still renders; its option is keyed by
    [undefined]. *)
Example missing_address :
  exists e,
    AddressSelect.renderAccountItem styles (VObj [("name", VStr "Eve")]) = Ok e /\
    attr "key" e = Some (Expr VUndefined).
Proof.
  eexists. split; reflexivity.
Qed.

(** An entry that is [undefined] makes the whole rendering throw. *)
Example undefined_entry_throws :
  AddressSelect.render styles (props (VObj [("0xAAA", alice); ("gap", VUndefined)])) =
    Throw TypeError.
Proof.
  reflexivity.
Qed.

End Samples.

Lemma onChange_forwards_witness :
  Props.onChange (Scenario.props (VObj Scenario.two_accounts)) =
    VFun Scenario.on_select /\
  AddressSelect.onChange Scenario.quiet_host
    (Scenario.props (VObj Scenario.two_accounts))
    Scenario.click (VNum 1) (VStr "0xBBB") Scenario.empty_page =
    (Ok VUndefined,
     World (Window VUndefined VUndefined)
       [Call Scenario.on_select [Scenario.click; VStr "0xBBB"]]).
Proof.
  split; [reflexivity|].
  exact (proj1 (onChange_forwards Scenario.quiet_host
                  (Scenario.props (VObj Scenario.two_accounts))
                  Scenario.click (VNum 1) (VStr "0xBBB")
                  Scenario.on_select Scenario.empty_page eq_refl)).
Defined.

Lemma options_count_witness :
  Scenario.two_accounts <> [] /\
  exists opts,
    AddressSelect.renderSelectAccounts Scenario.styles
      (Scenario.props (VObj Scenario.two_accounts)) = Ok opts /\
    AddressSelect.rendered_options Scenario.styles
      (Scenario.props (VObj Scenario.two_accounts)) = Ok opts /\
    List.length opts = 2%nat.
Proof.
  assert (Hne : Scenario.two_accounts <> []) by discriminate.
  split; [exact Hne|].
  destruct (options_count Scenario.styles
              (Scenario.props (VObj Scenario.two_accounts))
              Scenario.two_accounts eq_refl Hne)
    as (opts & H1 & H2 & H3 & _).
  - repeat constructor.
  - exists opts. repeat split; assumption.
Defined.

Lemma unnamed_label_witness :
  (exists e,
     AddressSelect.renderAccountItem Scenario.styles Scenario.anonymous = Ok e /\
     AddressSelect.name_label e = Some (Expr (VStr "Unnamed"))) /\
  (exists e,
     AddressSelect.renderAccountItem Scenario.styles Scenario.blank = Ok e /\
     AddressSelect.name_label e = Some (Expr (VStr "Unnamed"))).
Proof.
  split.
  - apply (unnamed_label Scenario.styles [("address", VStr "0xBBB")]).
    left. reflexivity.
  - apply (unnamed_label Scenario.styles
             [("address", VStr "0xCCC"); ("name", VStr "")]).
    right. reflexivity.
Defined.

Lemma named_label_witness :
  exists e,
    AddressSelect.renderAccountItem Scenario.styles Scenario.alice = Ok e /\
    AddressSelect.name_label e = Some (Expr (VStr "Alice")).
Proof.
  apply (named_label Scenario.styles
           [("address", VStr "0xAAA"); ("name", VStr "Alice")] "Alice").
  - reflexivity.
  - discriminate.
Defined.

Lemma empty_accounts_witness :
  AddressSelect.renderSelectAccounts Scenario.styles
    (Scenario.props (VObj [])) = Ok [] /\
  AddressSelect.rendered_options Scenario.styles
    (Scenario.props (VObj [])) = Ok [] /\
  is_ok (AddressSelect.render Scenario.styles (Scenario.props (VObj []))) = true.
Proof.
  destruct (empty_accounts Scenario.styles (Scenario.props (VObj [])) eq_refl)
    as (H1 & H2 & H3).
  split; [exact H1|]. split; [exact H2|].
  rewrite H3. reflexivity.
Defined.

Lemma disabled_passthrough_witness :
  exists e,
    AddressSelect.render Scenario.styles
      (Props.with_disabled (VBool true)
         (Scenario.props (VObj Scenario.two_accounts))) = Ok e /\
    attr "disabled" e = Some (Expr (VBool true)) /\
    List.length (flat_children e) = 2%nat.
Proof.
  destruct (disabled_passthrough Scenario.styles
              (Scenario.props (VObj Scenario.two_accounts)) (VBool true)
              _ eq_refl) as (_ & _ & e & He & _ & Hd & Hc).
  exists e. split; [exact He|]. split; [exact Hd|].
  rewrite Hc. reflexivity.
Defined.

Lemma omitted_accounts_throw_witness :
  Props.accounts (Scenario.props VUndefined) = VUndefined /\
  AddressSelect.render Scenario.styles (Scenario.props VUndefined) = Throw TypeError /\
  is_ok (AddressSelect.render Scenario.styles
           (Scenario.props (VObj Scenario.two_accounts))) = true.
Proof.
  split; [reflexivity|].
  destruct (omitted_accounts_throw Scenario.styles (Scenario.props VUndefined)
              eq_refl) as (_ & Hr & Hok & _).
  split; [exact Hr|].
  apply (Hok Scenario.two_accounts). repeat constructor.
Defined.

Lemma keys_irrelevant_witness :
  exists opts opts',
    AddressSelect.renderSelectAccounts Scenario.styles
      (Scenario.props (VObj Scenario.two_accounts)) = Ok opts /\
    AddressSelect.renderSelectAccounts Scenario.styles
      (Scenario.props (VObj Scenario.rekeyed_accounts)) = Ok opts' /\
    Permutation opts opts'.
Proof.
  destruct (keys_irrelevant Scenario.styles
              (Scenario.props (VObj Scenario.two_accounts))
              (Scenario.props (VObj Scenario.rekeyed_accounts))
              Scenario.two_accounts Scenario.rekeyed_accounts
              eq_refl eq_refl)
    as (opts & opts' & H1 & H2 & Hp & _).
  - repeat constructor.
  - apply perm_swap.
  - exists opts, opts'. repeat split; assumption.
Defined.

Lemma script_dispatch_witness :
  (exists f,
     register_implementors (win Scenario.loaded_page) = VFun f /\
     Implementors.script Scenario.quiet_host Scenario.loaded_page =
       (Ok VUndefined,
        World (win Scenario.loaded_page)
          [Call f [Implementors.implementors]])) /\
  Implementors.script Scenario.quiet_host Scenario.empty_page =
    (Ok VUndefined,
     World (Window VUndefined Implementors.implementors) []).
Proof.
  split.
  - apply (script_dispatch Scenario.quiet_host Scenario.loaded_page).
    right. exists Scenario.register. reflexivity.
  - apply (script_dispatch Scenario.quiet_host Scenario.empty_page).
    left. reflexivity.
Defined.

(** ** Further properties of the component *)

Section MoreArrayMap.

Context {A B : Type} (f : A -> result B).

(** An exception of [xs.map(f)] is the exception of [f] at some element. *)
Lemma Array_map_throw (xs : list A) (e : exn) :
  Array_map f xs = Throw e -> exists x, In x xs /\ f x = Throw e.
Proof.
  induction xs as [|x xs IH]; simpl; [discriminate|].
  destruct (f x) as [y|e'] eqn:Hx; simpl.
  - destruct (Array_map f xs) as [ys|e'']; simpl; [discriminate|].
    intros [= ->]. destruct IH as (x' & Hin & Hx'); [reflexivity|].
    exists x'. split; [now right | assumption].
  - intros [= ->]. exists x. split; [now left | assumption].
Qed.

Lemma Forall2_map_eq {C : Type} (g : A -> C) (h : B -> C)
    (xs : list A) (ys : list B) :
  Forall2 (fun x y => h y = g x) xs ys -> map h ys = map g xs.
Proof.
  induction 1 as [|x y xs ys Hxy _ IH]; simpl; [reflexivity|].
  now rewrite Hxy, IH.
Qed.

End MoreArrayMap.

Lemma NoDup_map_injective {A B : Type} (g : A -> B) (xs : list A) :
  (forall x y, g x = g y -> x = y) -> NoDup xs -> NoDup (map g xs).
Proof.
  intros Hinj. induction 1 as [|x xs Hx _ IH]; simpl; constructor.
  - intros Hin. apply in_map_iff in Hin as (y & Hy & Hin).
    apply Hinj in Hy. now subst y.
  - assumption.
Qed.

Section MoreRendering.

Import AddressSelect.

Variable styles : list (string * value).

Lemma renderAccountItem_throw (account : value) (e : exn) :
  renderAccountItem styles account = Throw e -> e = TypeError.
Proof.
  destruct account; simpl; intros H; try discriminate H;
    injection H as <-; reflexivity.
Qed.

Lemma renderAccountItem_key_value (account : value) (e : node) :
  renderAccountItem styles account = Ok e ->
  attr "key" e = Some (Expr (Account.address account)) /\
  attr "value" e = Some (Expr (Account.address account)).
Proof.
  destruct account; simpl; try discriminate; intros [= <-]; split; reflexivity.
Qed.

(** X1: [render] throws nothing but [TypeError], and it returns exactly
    when [accounts] can be enumerated (it is neither [undefined] nor
    [null]) and none of the enumerated values is [undefined] or [null];
    one such value is enough to lose the whole dropdown. *)
Theorem render_outcome (this : Props.t) :
  (forall e, render styles this = Throw e -> e = TypeError) /\
  (is_ok (render styles this) = true <->
   exists values,
     Object_values (Props.accounts this) = Ok values /\
     Forall (fun a => nullish a = false) values) /\
  (forall ps k a,
     Props.accounts this = VObj ps -> In (k, a) ps -> nullish a = true ->
     render styles this = Throw TypeError).
Proof.
  assert (Honly : forall e, render styles this = Throw e -> e = TypeError).
  { intros e. unfold render, renderSelectAccounts.
    destruct (Object_values (Props.accounts this)) as [values|e'] eqn:Hv; simpl.
    - destruct (Array_map (renderAccountItem styles) values) as [opts|e'']
        eqn:Hm; simpl; [discriminate|].
      intros [= ->]. apply Array_map_throw in Hm as (a & _ & Ha).
      now apply renderAccountItem_throw in Ha.
    - intros [= ->]. destruct (Props.accounts this); simpl in Hv; congruence. }
  assert (Hiff : is_ok (render styles this) = true <->
                 exists values,
                   Object_values (Props.accounts this) = Ok values /\
                   Forall (fun a => nullish a = false) values).
  { rewrite render_is_ok. apply renderSelectAccounts_is_ok. }
  split; [exact Honly|]. split; [exact Hiff|].
  intros ps k a Hacc Hin Hnull.
  destruct (render styles this) as [e|e] eqn:Hr.
  - exfalso. destruct Hiff as [Hiff _].
    destruct (Hiff eq_refl) as (values & Hv & Hall).
    rewrite Hacc in Hv. simpl in Hv. injection Hv as <-.
    rewrite Forall_forall in Hall.
    specialize (Hall a (in_map snd _ _ Hin)). simpl in Hall. congruence.
  - f_equal. now apply Honly.
Qed.

(** X2: when rendering succeeds, the keys of the options are the
    addresses of the enumerated accounts, in order, and so are their
    values; hence the keys are pairwise distinct exactly when the
    addresses are: the component neither merges nor renames accounts
    that share an address. *)
Theorem option_keys_are_addresses (this : Props.t) (values : list value) :
  Object_values (Props.accounts this) = Ok values ->
  Forall (fun a => nullish a = false) values ->
  exists opts,
    renderSelectAccounts styles this = Ok opts /\
    map (attr "key") opts =
      map (fun a => Some (Expr (Account.address a))) values /\
    map (attr "value") opts =
      map (fun a => Some (Expr (Account.address a))) values /\
    (NoDup (map (attr "key") opts) <-> NoDup (map Account.address values)).
Proof.
  intros Hv Hall. unfold renderSelectAccounts. rewrite Hv. simpl.
  destruct (Array_map_total (renderAccountItem styles) values) as [opts Hopts].
  { eapply Forall_impl; [|exact Hall]. intros a Ha. simpl in Ha.
    now rewrite renderAccountItem_is_ok, Ha. }
  exists opts. split; [assumption|].
  apply Array_map_Forall2 in Hopts.
  assert (Hk : map (attr "key") opts =
               map (fun a => Some (Expr (Account.address a))) values).
  { apply Forall2_map_eq. eapply Forall2_impl; [|exact Hopts].
    intros a e He. now apply renderAccountItem_key_value in He. }
  assert (Hval : map (attr "value") opts =
                 map (fun a => Some (Expr (Account.address a))) values).
  { apply Forall2_map_eq. eapply Forall2_impl; [|exact Hopts].
    intros a e He. now apply renderAccountItem_key_value in He. }
  split; [exact Hk|]. split; [exact Hval|].
  rewrite Hk, <- (map_map Account.address (fun v => Some (Expr v))).
  split.
  - apply NoDup_map_inv.
  - apply NoDup_map_injective. intros x y H. now injection H.
Qed.

(** X3: the option of any account that is neither [undefined] nor
    [null] is a [MenuItem] with a single child, the row, which is also
    its [label]; the identity icon in that row is [inline] and [center]
    and shows the very address that is the option's key and value. *)
Theorem option_shape (account : value) :
  nullish account = false ->
  exists e row,
    renderAccountItem styles account = Ok e /\
    type_of e = Some "MenuItem" /\
    children_of e = [row] /\
    attr "label" e = Some row /\
    MenuItem.icon_attr "address" e = Some (Expr (Account.address account)) /\
    MenuItem.icon_attr "address" e = attr "key" e /\
    MenuItem.icon_attr "address" e = attr "value" e /\
    MenuItem.icon_attr "inline" e = Some (Expr (VBool true)) /\
    MenuItem.icon_attr "center" e = Some (Expr (VBool true)).
Proof.
  intros H.
  destruct account; try discriminate H;
    (do 2 eexists; split; [reflexivity|]; repeat split).
Qed.

(** X4: the placeholder stands in for every falsy name, not only for a
    missing or empty one ([null], [false], [0] and [NaN] too); a truthy
    name of any type is the label as it is, without conversion.  So the
    label reads ["Unnamed"] exactly when the name is falsy or is the
    string ["Unnamed"] itself. *)
Theorem label_of_name (fields : list (string * value)) :
  exists e,
    renderAccountItem styles (VObj fields) = Ok e /\
    (truthy (own "name" fields) = true ->
     name_label e = Some (Expr (own "name" fields))) /\
    (name_label e = Some (Expr (VStr "Unnamed")) <->
     truthy (own "name" fields) = false \/
     own "name" fields = VStr "Unnamed").
Proof.
  destruct (renderAccountItem_record styles fields)
    as (e & He & _ & _ & _ & _ & Hl).
  exists e. split; [assumption|]. rewrite Hl. unfold or_else.
  destruct (truthy (own "name" fields)) eqn:Ht.
  - split; [reflexivity|]. split.
    + intros [= ->]. now right.
    + intros [H | ->]; [discriminate | reflexivity].
  - split; [discriminate|]. split; [now left | reflexivity].
Qed.

(** X5: of the props, only [accounts] decides the options.  The display
    props [label], [hint], [error] and [value] reach the dropdown widget
    as they are, [value] also when no option has it, and the widget's
    change handler is the component's own method, never the [onChange]
    prop itself. *)
Theorem props_passthrough (this that : Props.t) (opts : list node) :
  Props.accounts that = Props.accounts this ->
  renderSelectAccounts styles this = Ok opts ->
  exists e,
    render styles that = Ok e /\
    flat_children e = opts /\
    attr "label" e = Some (Expr (Props.label that)) /\
    attr "hint" e = Some (Expr (Props.hint that)) /\
    attr "error" e = Some (Expr (Props.error that)) /\
    attr "value" e = Some (Expr (Props.value that)) /\
    attr "onChange" e = Some (Method "onChange").
Proof.
  intros Hacc Hopts.
  assert (H : renderSelectAccounts styles that = Ok opts).
  { unfold renderSelectAccounts in *. now rewrite Hacc. }
  unfold render. rewrite H. simpl.
  eexists. split; [reflexivity|]. repeat split.
  unfold flat_children. simpl. apply app_nil_r.
Qed.

End MoreRendering.

Section MoreHandler.

Variable host : world -> func -> list value -> result value.

(** X6: change events are neither coalesced nor dropped: two events in
    a row, alike or not, give two calls of the [onChange] prop, in the
    order of the events, once the first call has returned. *)
Theorem two_changes (this : Props.t) (e1 i1 v1 e2 i2 v2 : value)
    (f : func) (w : world) (r : value) :
  Props.onChange this = VFun f ->
  host w f [e1; v1] = Ok r ->
  (_ <~ AddressSelect.onChange host this e1 i1 v1 ;;
   AddressSelect.onChange host this e2 i2 v2) w =
    (_ <- host (World (win w) (calls w ++ [Call f [e1; v1]])) f [e2; v2] ;;
     Ok VUndefined,
     World (win w) (calls w ++ [Call f [e1; v1]; Call f [e2; v2]])).
Proof.
  intros Hf Hr.
  unfold AddressSelect.onChange, and_then, apply, record_call, ret.
  rewrite Hf, Hr. simpl. rewrite <- app_assoc. simpl.
  now destruct (host _ f [e2; v2]).
Qed.

(** X7: leaving out the required [onChange] prop does not stop the
    component from rendering; the failure comes with the first change
    event, when the handler throws a [TypeError] and nothing is called. *)
Theorem omitted_onChange_fails_late (styles : list (string * value))
    (this : Props.t) (opts : list node) (event idx value : value) (w : world) :
  Props.onChange this = VUndefined ->
  AddressSelect.renderSelectAccounts styles this = Ok opts ->
  (exists e,
     AddressSelect.render styles this = Ok e /\
     flat_children e = opts /\
     attr "onChange" e = Some (Method "onChange")) /\
  AddressSelect.onChange host this event idx value w = (Throw TypeError, w).
Proof.
  intros Hon Hopts. split.
  - unfold AddressSelect.render. rewrite Hopts. simpl.
    eexists. split; [reflexivity|]. split; [|reflexivity].
    unfold flat_children. simpl. apply app_nil_r.
  - apply onChange_not_callable. intros f. rewrite Hon. discriminate.
Qed.

End MoreHandler.

(** ** Further properties of the implementors script *)

Section MoreAssign.



End MoreAssign.

Section MoreDispatch.

Import Implementors.

Variable host : world -> func -> list value -> result value.

Lemma function_or_not (v : value) :
  (exists f, v = VFun f) \/ (forall f, v <> VFun f).
Proof.
  destruct v; try (right; discriminate). left. now eexists.
Qed.

Lemma script_callback (w : world) (f : func) :
  register_implementors (win w) = VFun f ->
  script host w =
    (_ <- host w f [implementors] ;; Ok VUndefined,
     World (win w) (calls w ++ [Call f [implementors]])).
Proof.
  intros H.
  unfold script, and_then, get_register_implementors, apply.
  rewrite H. simpl. rewrite H.
  now destruct (host w f [implementors]).
Qed.

(** X9: whatever [window] holds, the script never writes to
    [register_implementors], never removes a recorded call, and does one
    of three things: it throws a [TypeError] and changes nothing; or it
    calls the function in the slot once with the mapping and writes to
    no slot; or it stores the mapping in [pending_implementors] and
    calls nothing.  It never both registers and stores. *)
Theorem script_effects (w : world) :
  let w' := snd (script host w) in
  register_implementors (win w') = register_implementors (win w) /\
  ((fst (script host w) = Throw TypeError /\ w' = w) \/
   (exists f,
      register_implementors (win w) = VFun f /\
      win w' = win w /\
      calls w' = (calls w ++ [Call f [implementors]])%list) \/
   (fst (script host w) = Ok VUndefined /\
    calls w' = calls w /\
    pending_implementors (win w') = implementors)).
Proof.
  simpl.
  destruct (truthy (register_implementors (win w))) eqn:Ht.
  - destruct (function_or_not (register_implementors (win w)))
      as [[f Hr] | Hnf].
    + rewrite (script_callback w f Hr). simpl.
      split; [reflexivity|]. right. left. exists f. repeat split. exact Hr.
    + rewrite script_not_callable by assumption.
      split; [reflexivity|]. left. split; reflexivity.
  - rewrite script_falsy by assumption. simpl.
    split; [reflexivity|]. right. right. repeat split.
Qed.

(** X10: the branch is chosen by truthiness, so a slot that is defined
    but falsy ([null], [false], [0], [NaN] or the empty string) counts as
    no callback: the mapping goes to [pending_implementors], replacing
    whatever was pending there, and nothing is called. *)
Theorem falsy_slot_stores (slot old : value) (log : list call) :
  truthy slot = false ->
  script host (World (Window slot old) log) =
    (Ok VUndefined, World (Window slot implementors) log).
Proof.
  intros H. now rewrite script_falsy.
Qed.

(** X11: a truthy slot that holds no function (a number, a string, an
    object, an array) makes the script throw a [TypeError]: the mapping
    is neither registered nor left pending. *)
Theorem non_function_slot_throws (slot old : value) (log : list call) :
  truthy slot = true ->
  (forall f, slot <> VFun f) ->
  script host (World (Window slot old) log) =
    (Throw TypeError, World (Window slot old) log).
Proof.
  intros Ht Hnf. now rewrite script_not_callable.
Qed.


End MoreDispatch.

(** ** The further properties at the sample inputs *)

Lemma option_keys_are_addresses_witness :
  exists opts,
    AddressSelect.renderSelectAccounts Scenario.styles
      (Scenario.props (VObj Scenario.two_accounts)) = Ok opts /\
    map (attr "key") opts =
      [Some (Expr (VStr "0xAAA")); Some (Expr (VStr "0xBBB"))] /\
    NoDup (map (attr "key") opts).
Proof.
  destruct (option_keys_are_addresses Scenario.styles
              (Scenario.props (VObj Scenario.two_accounts))
              [Scenario.alice; Scenario.anonymous] eq_refl)
    as (opts & Hopts & Hk & _ & Hnd).
  - repeat constructor.
  - exists opts. split; [exact Hopts|]. split; [exact Hk|].
    apply Hnd. simpl. repeat constructor; simpl; intuition discriminate.
Defined.

Lemma option_shape_witness :
  exists e row,
    AddressSelect.renderAccountItem Scenario.styles Scenario.alice = Ok e /\
    children_of e = [row] /\
    attr "label" e = Some row /\
    MenuItem.icon_attr "address" e = Some (Expr (VStr "0xAAA")).
Proof.
  destruct (option_shape Scenario.styles Scenario.alice eq_refl)
    as (e & row & He & _ & Hc & Hl & Ha & _).
  exists e, row. repeat split; assumption.
Defined.

Lemma props_passthrough_witness :
  exists e,
    AddressSelect.render Scenario.styles
      (Props.Make (VBool true) (VObj Scenario.two_accounts) (VStr "other")
         VUndefined (VStr "bad") (VStr "0xZZZ") VUndefined) = Ok e /\
    Ok (flat_children e) =
      AddressSelect.renderSelectAccounts Scenario.styles
        (Scenario.props (VObj Scenario.two_accounts)) /\
    attr "value" e = Some (Expr (VStr "0xZZZ")) /\
    attr "onChange" e = Some (Method "onChange").
Proof.
  destruct (props_passthrough Scenario.styles
              (Scenario.props (VObj Scenario.two_accounts))
              (Props.Make (VBool true) (VObj Scenario.two_accounts)
                 (VStr "other") VUndefined (VStr "bad") (VStr "0xZZZ")
                 VUndefined)
              _ eq_refl eq_refl)
    as (e & He & Hc & _ & _ & _ & Hv & Hon).
  exists e. split; [exact He|]. split; [|split; assumption].
  rewrite Hc. reflexivity.
Defined.

Lemma two_changes_witness :
  (_ <~ AddressSelect.onChange Scenario.quiet_host
          (Scenario.props (VObj Scenario.two_accounts))
          Scenario.click (VNum 0) (VStr "0xAAA") ;;
   AddressSelect.onChange Scenario.quiet_host
     (Scenario.props (VObj Scenario.two_accounts))
     Scenario.click (VNum 0) (VStr "0xAAA")) Scenario.empty_page =
    (Ok VUndefined,
     World (Window VUndefined VUndefined)
       [ Call Scenario.on_select [Scenario.click; VStr "0xAAA"];
         Call Scenario.on_select [Scenario.click; VStr "0xAAA"] ]).
Proof.
  exact (two_changes Scenario.quiet_host
           (Scenario.props (VObj Scenario.two_accounts))
           Scenario.click (VNum 0) (VStr "0xAAA")
           Scenario.click (VNum 0) (VStr "0xAAA")
           Scenario.on_select Scenario.empty_page VUndefined
           eq_refl eq_refl).
Defined.

Lemma omitted_onChange_fails_late_witness :
  is_ok (AddressSelect.render Scenario.styles
           (Props.Make VUndefined (VObj Scenario.two_accounts) VUndefined
              VUndefined VUndefined VUndefined VUndefined)) = true /\
  AddressSelect.onChange Scenario.quiet_host
    (Props.Make VUndefined (VObj Scenario.two_accounts) VUndefined
       VUndefined VUndefined VUndefined VUndefined)
    Scenario.click (VNum 1) (VStr "0xBBB") Scenario.empty_page =
    (Throw TypeError, Scenario.empty_page).
Proof.
  destruct (omitted_onChange_fails_late Scenario.quiet_host Scenario.styles
              (Props.Make VUndefined (VObj Scenario.two_accounts) VUndefined
                 VUndefined VUndefined VUndefined VUndefined)
              _ Scenario.click (VNum 1) (VStr "0xBBB") Scenario.empty_page
              eq_refl eq_refl)
    as ((e & He & _) & Hh).
  split; [|exact Hh]. rewrite He. reflexivity.
Defined.

Lemma falsy_slot_stores_witness :
  Implementors.script Scenario.quiet_host
    (World (Window VNull (VStr "earlier")) []) =
    (Ok VUndefined, World (Window VNull Implementors.implementors) []).
Proof.
  exact (falsy_slot_stores Scenario.quiet_host VNull (VStr "earlier") []
           eq_refl).
Defined.

Lemma non_function_slot_throws_witness :
  Implementors.script Scenario.quiet_host
    (World (Window (VNum 1) VUndefined) []) =
    (Throw TypeError, World (Window (VNum 1) VUndefined) []).
Proof.
  apply (non_function_slot_throws Scenario.quiet_host (VNum 1) VUndefined []).
  - reflexivity.
  - intros f. discriminate.
Defined.

